(** * Clock-domain resolution and subsystem composition of the Colorlight i5/i9
      LiteX target ([litex/colorlight_i5.py])

    The target script is a sequence of calls into Migen/LiteX: it creates clock
    domains, asks two ECP5 PLLs for clock outputs and adds subsystems to the
    SoC.  The embedding below runs the script in a small state-and-exception
    monad whose state is the chronological log of those calls.  The clock plan
    and the list of subsystem descriptors are read off the log.

    A run is [Done] when the script reaches its end; it is [Raised] when an
    exception leaves it, and then carries the calls made before the exception.
    Two library calls are modelled with the checks they make on their
    arguments, because the script relies on them to refuse a configuration:
    the platform constructor (board and revision) and the generator's
    [create_clkout] (frequency range and number of outputs).  The other
    library calls are logged as made; what LiteX does inside them (PLL
    solving, pin tables, reset wiring, memory timings, bitstream generation)
    is not modelled, so a statement about the script is made on the runs that
    return.

    Frequencies are Python floats, modelled by Rocq's binary64 primitive
    floats. *)

From Stdlib Require Import ZArith String Ascii List Bool Lia.
From Stdlib Require Import Floats.PrimFloat Floats.FloatOps Floats.SpecFloat.
From Stdlib Require Import Floats.FloatAxioms.
Import ListNotations.

Local Open Scope string_scope.
Local Open Scope Z_scope.

(** ** Python built-ins used by the script *)

Module Py.

(** Exceptions that can leave the script.  The script has no [raise]
    statement of its own; these are the interpreter's, the libraries'
    assertions and argparse's. *)
Inductive exn : Type :=
| AssertionError                      (* a failed [assert]; carries no message *)
| AttributeError    (attr : string)   (* self.<attr> read before assignment *)
| UnboundLocalError (var : string)    (* local name read before binding *)
| ValueError        (msg : string)    (* int(nan) *)
| OverflowError     (msg : string)    (* int(inf) *)
| SystemExit        (code : Z).       (* argparse's parser.error: exit status 2 *)

(** [str.lower] / [str.upper] on the ASCII range (bytes above 127 are kept;
    no identifier with such a byte lower-cases to "i5" or "i9"). *)
Definition lower_char (c : ascii) : ascii :=
  let n := N_of_ascii c in
  if (65 <=? n)%N && (n <=? 90)%N then ascii_of_N (n + 32) else c.

Definition upper_char (c : ascii) : ascii :=
  let n := N_of_ascii c in
  if (97 <=? n)%N && (n <=? 122)%N then ascii_of_N (n - 32) else c.

Fixpoint map_string (f : ascii -> ascii) (s : string) : string :=
  match s with
  | EmptyString => EmptyString
  | String c s' => String (f c) (map_string f s')
  end.

Definition lower : string -> string := map_string lower_char.
Definition upper : string -> string := map_string upper_char.

(** [int(x)] for a float [x]: truncation towards zero; NaN and the
    infinities raise. *)
Definition int (x : float) : exn + Z :=
  match Prim2SF x with
  | S754_nan        => inl (ValueError "cannot convert float NaN to integer")
  | S754_infinity _ => inl (OverflowError "cannot convert float infinity to integer")
  | S754_zero _     => inr 0
  | S754_finite s m e =>
      let mag := if 0 <=? e then Z.pos m * 2 ^ e else Z.pos m / 2 ^ (- e) in
      inr (if s then - mag else mag)
  end.

(** Truthiness of an integer ([not n] is [n == 0]). *)
Definition truthy (n : Z) : bool := negb (n =? 0).

End Py.

Arguments Py.int : simpl never.
Arguments Py.lower : simpl never.
Arguments Py.upper : simpl never.

(** ** The calls the script makes *)

(** Reference clock handed to [register_clkin]: the board's 25 MHz pin or the
    signal driven by the internal OSCG oscillator. *)
Inductive ClockSource : Type :=
| Clk25Pin
| OscgSignal.

Inductive SpiFlashModule : Type := GD25Q16 | W25Q64.

Inductive SdrPhy : Type := GENSDRPHY | HalfRateGENSDRPHY.

(** Subsystem descriptors: the SoC constructor and the [add_*] calls. *)
Inductive descriptor : Type :=
| SoCCore (clk_freq : Z) (ident : string)
| SpiFlash (mode : string) (module : SpiFlashModule) (default_read_cmd : string)
| Sdram (phy : SdrPhy) (module_clk_freq : float) (module_rate : string)
        (l2_cache_size : Z) (l2_cache_reverse : bool)
| VideoTerminal (phy_clock_domain : string) (timings : string) (clock_domain : string)
| VideoFramebuffer (phy_clock_domain : string) (timings : string) (clock_domain : string).
   (* LiteX's add_video_framebuffer; the script has no call to it *)

Inductive event : Type :=
| Platform        (board revision toolchain : string) (* colorlight_i5.Platform(...) *)
| AddExtension    (name : string)                    (* platform.add_extension(_hdmi_infos) *)
| NewClockDomain  (attr : string)                    (* self.<attr> = ClockDomain() *)
| PlatformRequest (name : string)                    (* platform.request(name) *)
| Oscillator      (div : Z)                          (* Instance("OSCG", p_DIV = div, ...) *)
| NewPLL          (attr : string)                    (* self.<attr> = ECP5PLL() *)
| RegisterClkin   (pll : string) (clk : ClockSource) (freq : float)
| CreateClkout    (pll : string) (cd : string) (freq : float)
                  (phase : option Z) (margin : option float)
                                                     (* None: argument not passed *)
| Subsystem       (d : descriptor)
| Build                                              (* builder.build(...) *)
| LoadBitstream.                                     (* prog.load_bitstream(...) *)

(** Migen names an anonymous [ClockDomain()] after the attribute it is assigned
    to, without the [cd_] prefix; the script relies on it when it passes
    [clock_domain="hdmi"] for the domain stored in [self.cd_hdmi]. *)
Definition cd_name (attr : string) : string :=
  match attr with
  | String "c" (String "d" (String "_" rest)) => rest
  | _ => attr
  end.

(** ** State-and-exception monad over the call log *)

Inductive outcome (A : Type) : Type :=
| Done   (a : A) (log : list event)
| Raised (e : Py.exn) (log : list event).   (* the calls made before [e] *)
Arguments Done {A} a log.
Arguments Raised {A} e log.

Definition M (A : Type) : Type := list event -> outcome A.

Definition ret {A} (a : A) : M A := fun log => Done a log.

Definition bind {A B} (m : M A) (k : A -> M B) : M B :=
  fun log => match m log with
             | Done a log' => k a log'
             | Raised e log' => Raised e log'
             end.

Definition raise {A} (e : Py.exn) : M A := fun log => Raised e log.

Definition emit (e : event) : M unit := fun log => Done tt (log ++ [e]).

(** The calls made so far. *)
Definition get_log : M (list event) := fun log => Done log log.

(** Lifting a Python built-in that may raise. *)
Definition lift {A} (r : Py.exn + A) : M A :=
  match r with
  | inl e => raise e
  | inr a => ret a
  end.

(** [assert b] *)
Definition assert_ (b : bool) : M unit :=
  if b then ret tt else raise Py.AssertionError.

Notation "x <- m ;; k" := (bind m (fun x => k))
  (at level 61, m at next level, right associativity).
Notation "m ;; k" := (bind m (fun _ => k))
  (at level 61, right associativity).

(** Running a script from the empty log. *)
Definition exec (m : M unit) : outcome unit := m [].

Definition is_done (o : outcome unit) : bool :=
  match o with
  | Done _ _ => true
  | Raised _ _ => false
  end.


Definition has_clock_domain (attr : string) (log : list event) : bool :=
  existsb (fun e => match e with
                    | NewClockDomain a => String.eqb a attr
                    | _ => false
                    end) log.

(** [self.<attr>] for a clock-domain attribute: the domain's name, or
    AttributeError when the attribute was never assigned. *)
Definition getattr_cd (attr : string) : M string :=
  fun log => if has_clock_domain attr log then Done (cd_name attr) log
             else Raised (Py.AttributeError attr) log.

(** ** The generator: [ECP5PLL] *)

(** A requested clock output, as a clock-domain specification. *)
Record ClockDomainSpec : Type := {
  cds_name   : string;
  cds_freq   : float;
  cds_phase  : option Z;       (* degrees; None: the generator's default *)
  cds_margin : option float    (* None: the generator's default *)
}.

Definition cds (name : string) (f : float) (ph : option Z) (mg : option float)
  : ClockDomainSpec :=
  {| cds_name := name; cds_freq := f; cds_phase := ph; cds_margin := mg |}.

(** The outputs requested from generator [p], in request order. *)
Definition pll_outputs (p : string) (log : list event) : list ClockDomainSpec :=
  flat_map (fun e => match e with
                     | CreateClkout q cd f ph mg =>
                         if (q =? p)%string then [cds cd f ph mg] else []
                     | _ => []
                     end) log.

(** Modelled from the spec: the number of outputs one generator can produce,
    a constant of the generator (at most 4 per generator in this design;
    [ECP5PLL.nclkouts_max]). *)
Definition nclkouts_max : nat := 4.

(** The generator's output frequency range, [ECP5PLL.clko_freq_range]. *)
Definition clko_freq_min : float := 3.125e6%float.
Definition clko_freq_max : float := 400e6%float.

(** [freq >= clko_freq_min] and [freq <= clko_freq_max]; false for NaN. *)
Definition clko_ok (freq : float) : bool :=
  (clko_freq_min <=? freq)%float && (freq <=? clko_freq_max)%float.

Arguments clko_ok : simpl never.

(** [self.nclkouts] of generator [p]: the outputs created so far. *)
Definition nclkouts (p : string) (log : list event) : nat :=
  length (pll_outputs p log).

(** [pll.create_clkout(self.<cd_attr>, freq, ...)].  The argument is read
    first; the generator then asserts that the frequency is in its range and
    that it has an output left, and only then records the output. *)
Definition create_clkout (pll cd_attr : string) (freq : float)
    (phase : option Z) (margin : option float) : M unit :=
  cd <- getattr_cd cd_attr ;;
  assert_ (clko_ok freq) ;;
  log <- get_log ;;
  assert_ (nclkouts pll log <? nclkouts_max)%nat ;;
  emit (CreateClkout pll cd freq phase margin).

(** ** [_CRG.__init__] *)

Definition _CRG (sys_clk_freq : float)
    (use_internal_osc with_usb_pll with_video_pll : bool)
    (sdram_rate : string) : M unit :=
  emit (NewClockDomain "cd_sys") ;;
  (if (sdram_rate =? "1:2")%string then
     emit (NewClockDomain "cd_sys2x") ;;
     emit (NewClockDomain "cd_sys2x_ps")
   else
     emit (NewClockDomain "cd_sys_ps")) ;;
  (* Clk / Rst *)
  src <- (if negb use_internal_osc then
            emit (PlatformRequest "clk25") ;;
            ret (Clk25Pin, 25e6%float)
          else
            let div := 5 in
            emit (Oscillator div) ;;
            ret (OscgSignal, (310e6 / 5)%float)) ;;   (* 310e6/div *)
  let '(clk, clk_freq) := src in
  emit (PlatformRequest "cpu_reset_n") ;;
  (* main PLL *)
  emit (NewPLL "pll") ;;
  emit (RegisterClkin "pll" clk clk_freq) ;;
  create_clkout "pll" "cd_sys" sys_clk_freq None None ;;
  (if (sdram_rate =? "1:2")%string then
     create_clkout "pll" "cd_sys2x"    (2 * sys_clk_freq)%float None None ;;
     create_clkout "pll" "cd_sys2x_ps" (2 * sys_clk_freq)%float (Some 180) None
   else
     create_clkout "pll" "cd_sys_ps" sys_clk_freq (Some 180) None) ;;
  (* video PLL (40 MHz for 800x600@60Hz) *)
  if with_video_pll then
    emit (NewPLL "video_pll") ;;
    emit (RegisterClkin "video_pll" clk clk_freq) ;;
    emit (NewClockDomain "cd_hdmi") ;;
    emit (NewClockDomain "cd_hdmi5x") ;;
    create_clkout "video_pll" "cd_hdmi"    40e6%float  None (Some 0%float) ;;
    create_clkout "video_pll" "cd_hdmi5x" 200e6%float None (Some 0%float)
  else
    ret tt.

(** ** [BaseSoC.__init__] *)

(** The keyword arguments the script looks at.  [integrated_main_ram_size] is
    the attribute [SoCCore.__init__] leaves on the SoC (0 unless main RAM was
    already integrated); [l2_size] is the key of [kwargs.get("l2_size", 8192)]. *)
Record kwargs : Type := {
  integrated_main_ram_size : Z;
  l2_size                  : option Z
}.

Record config : Type := {
  board                  : string;
  revision               : string;
  toolchain              : string;
  sys_clk_freq           : float;
  use_internal_osc       : bool;
  sdram_rate             : string;
  with_video_terminal    : bool;
  with_video_framebuffer : bool;
  kw                     : kwargs
}.

(** What the platform constructor [colorlight_i5.Platform(board, revision,
    toolchain)] checks before anything is built: under [board == "i5"] it
    asserts the revision to be "7.0", under [board == "i9"] to be "7.2", and
    it binds the device only under one of the two tests, so that any other
    board leaves [device] unbound where it is used.  [None]: accepted. *)
Definition platform_check (board revision : string) : option Py.exn :=
  if (board =? "i5")%string then
    if (revision =? "7.0")%string then None else Some Py.AssertionError
  else if (board =? "i9")%string then
    if (revision =? "7.2")%string then None else Some Py.AssertionError
  else Some (Py.UnboundLocalError "device").

Arguments platform_check : simpl never.

Definition Platform_init (board revision toolchain : string) : M unit :=
  match platform_check board revision with
  | Some e => raise e
  | None => emit (Platform board revision toolchain)
  end.

(** The two [if board == ...: from litespi.modules import ... as SpiFlashModule]
    statements: each binds the local name when its test holds; the name stays
    unbound otherwise. *)
Definition import_SpiFlashModule (board : string) : option SpiFlashModule :=
  let m := if (board =? "i5")%string then Some GD25Q16 else None in
  let m := if (board =? "i9")%string then Some W25Q64 else m in
  m.

(** The clock generation [BaseSoC] sets up:
    [with_video_pll = with_video_terminal or with_video_framebuffer], then
    [self.crg = _CRG(platform, sys_clk_freq, ...)]. *)
Definition crg_of (c : config) : M unit :=
  let with_video_pll := with_video_terminal c || with_video_framebuffer c in
  _CRG (sys_clk_freq c) (use_internal_osc c) false with_video_pll (sdram_rate c).

Definition BaseSoC (c : config) : M unit :=
  let board := Py.lower (board c) in
  Platform_init board (revision c) (toolchain c) ;;
  emit (AddExtension "hdmi") ;;
  (* CRG *)
  crg_of c ;;
  (* SoCCore *)
  clk <- lift (Py.int (sys_clk_freq c)) ;;
  emit (Subsystem (SoCCore clk ("LiteX SoC on Colorlight " ++ Py.upper board))) ;;
  (* SPI flash *)
  module <- match import_SpiFlashModule board with
            | Some m => ret m
            | None => raise (Py.UnboundLocalError "SpiFlashModule")
            end ;;
  emit (Subsystem (SpiFlash "1x" module "READ_1_1_1")) ;;
  (* SDRAM *)
  (if negb (Py.truthy (integrated_main_ram_size (kw c))) then
     let sdrphy_cls := if (sdram_rate c =? "1:2")%string
                       then HalfRateGENSDRPHY else GENSDRPHY in
     emit (PlatformRequest "sdram") ;;
     emit (Subsystem (Sdram sdrphy_cls (sys_clk_freq c) (sdram_rate c)
                        (match l2_size (kw c) with Some n => n | None => 8192 end)
                        false))
   else ret tt) ;;
  (* video PHY *)
  if with_video_terminal c || with_video_framebuffer c then
    emit (PlatformRequest "hdmi") ;;
    emit (Subsystem (VideoTerminal "hdmi" "800x600@60Hz" "hdmi"))
  else
    ret tt.

(** ** [main] *)

(** What the argument parser hands over.  [opt_video_terminal] and
    [opt_video_framebuffer] say whether [--with-video-terminal] and
    [--with-video-framebuffer] occur on the command line; [soc_argdict] is
    [parser.soc_argdict]. *)
Record cmdline : Type := {
  arg_board             : string;
  arg_revision          : string;
  arg_toolchain         : string;
  arg_sys_clk_freq      : float;
  arg_sdram_rate        : string;
  opt_video_terminal    : bool;
  opt_video_framebuffer : bool;
  arg_build             : bool;
  arg_load              : bool;
  soc_argdict           : kwargs
}.

(** [parser.parse_args()]: the two video options sit in one
    [add_mutually_exclusive_group()], so argparse reports an error and exits
    with status 2 when both occur. *)
Definition parse_args (a : cmdline) : M cmdline :=
  if opt_video_terminal a && opt_video_framebuffer a
  then raise (Py.SystemExit 2)
  else ret a.

Definition main (argv : cmdline) : M unit :=
  args <- parse_args argv ;;
  BaseSoC {| board := arg_board args;
             revision := arg_revision args;
             toolchain := arg_toolchain args;
             sys_clk_freq := arg_sys_clk_freq args;
             use_internal_osc := false;
             sdram_rate := arg_sdram_rate args;
             with_video_terminal := opt_video_terminal args;
             with_video_framebuffer := opt_video_framebuffer args;
             kw := soc_argdict args |} ;;
  (if arg_build args then emit Build else ret tt) ;;
  (if arg_load args then emit LoadBitstream else ret tt).

(** ** Reading the plan off the log *)

(** Names of the clock domains created, in creation order. *)
Definition clock_domains (log : list event) : list string :=
  flat_map (fun e => match e with
                     | NewClockDomain a => [cd_name a]
                     | _ => []
                     end) log.

(** The generators created, in creation order. *)
Definition plls (log : list event) : list string :=
  flat_map (fun e => match e with
                     | NewPLL p => [p]
                     | _ => []
                     end) log.

(** The reference clock registered with generator [p]. *)
Definition pll_clkin (p : string) (log : list event) : list (ClockSource * float) :=
  flat_map (fun e => match e with
                     | RegisterClkin q clk f =>
                         if (q =? p)%string then [(clk, f)] else []
                     | _ => []
                     end) log.

(** The subsystem descriptors, in instantiation order. *)
Definition descriptors (log : list event) : list descriptor :=
  flat_map (fun e => match e with
                     | Subsystem d => [d]
                     | _ => []
                     end) log.

(** The calls that exist only for the display pipeline. *)
Definition display_event (e : event) : bool :=
  match e with
  | NewClockDomain a => (a =? "cd_hdmi")%string || (a =? "cd_hdmi5x")%string
  | NewPLL p => (p =? "video_pll")%string
  | RegisterClkin p _ _ => (p =? "video_pll")%string
  | CreateClkout p _ _ _ _ => (p =? "video_pll")%string
  | PlatformRequest n => (n =? "hdmi")%string
  | Subsystem (VideoTerminal _ _ _) => true
  | Subsystem (VideoFramebuffer _ _ _) => true
  | _ => false
  end.

Definition display_descriptor (d : descriptor) : bool :=
  display_event (Subsystem d).

Definition display_domains (video : bool) : list string :=
  if video then ["hdmi"; "hdmi5x"] else [].

(** Modelled from the spec: the clock domains a subsystem is bound to, which
    LiteX decides inside the subsystem's constructor.  The core and the boot
    flash run on "sys"; the memory controller on "sys", and with the half-rate
    PHY of mode "1:2" also on "sys2x" and "sys2x_ps"; the display pipeline on
    the domain the script names and on its serializer companion (five times
    faster, suffix "5x"). *)
Definition descriptor_domains (d : descriptor) : list string :=
  match d with
  | SoCCore _ _ => ["sys"]
  | SpiFlash _ _ _ => ["sys"]
  | Sdram GENSDRPHY _ _ _ _ => ["sys"]
  | Sdram HalfRateGENSDRPHY _ _ _ _ => ["sys"; "sys2x"; "sys2x_ps"]
  | VideoTerminal phy_cd _ cd => [cd; phy_cd; phy_cd ++ "5x"]
  | VideoFramebuffer phy_cd _ cd => [cd; phy_cd; phy_cd ++ "5x"]
  end.

Definition mem (x : string) (l : list string) : bool :=
  existsb (String.eqb x) l.

(** Checker for the ordering contract: walking the log, every subsystem only
    names clock domains that were created earlier ([created]) and for which a
    generator output was requested earlier ([driven]). *)
Fixpoint ordered_from (created driven : list string) (log : list event) : bool :=
  match log with
  | [] => true
  | NewClockDomain a :: rest => ordered_from (cd_name a :: created) driven rest
  | CreateClkout _ cd _ _ _ :: rest => ordered_from created (cd :: driven) rest
  | Subsystem d :: rest =>
      forallb (fun x => mem x created && mem x driven) (descriptor_domains d)
      && ordered_from created driven rest
  | _ :: rest => ordered_from created driven rest
  end.



(** ** Configurations used in examples *)

Definition default_kwargs : kwargs :=
  {| integrated_main_ram_size := 0; l2_size := None |}.

(** The defaults of [BaseSoC.__init__]'s signature. *)
Definition default_config : config :=
  {| board := "i5"; revision := "7.0"; toolchain := "trellis";
     sys_clk_freq := 60e6%float; use_internal_osc := false;
     sdram_rate := "1:1";
     with_video_terminal := false; with_video_framebuffer := false;
     kw := default_kwargs |}.

Definition set_video (t fb : bool) (c : config) : config :=
  {| board := board c; revision := revision c; toolchain := toolchain c;
     sys_clk_freq := sys_clk_freq c; use_internal_osc := use_internal_osc c;
     sdram_rate := sdram_rate c;
     with_video_terminal := t; with_video_framebuffer := fb;
     kw := kw c |}.

Definition set_board (b : string) (c : config) : config :=
  {| board := b; revision := revision c; toolchain := toolchain c;
     sys_clk_freq := sys_clk_freq c; use_internal_osc := use_internal_osc c;
     sdram_rate := sdram_rate c;
     with_video_terminal := with_video_terminal c;
     with_video_framebuffer := with_video_framebuffer c;
     kw := kw c |}.

(** A command line carrying both display options. *)
Definition both_options : cmdline :=
  {| arg_board := "i5"; arg_revision := "7.0"; arg_toolchain := "trellis";
     arg_sys_clk_freq := 60e6%float; arg_sdram_rate := "1:1";
     opt_video_terminal := true; opt_video_framebuffer := true;
     arg_build := false; arg_load := false;
     soc_argdict := default_kwargs |}.

(** ** Further readings of the log *)

(** The board resources requested from the platform, in request order. *)
Definition requests (log : list event) : list string :=
  flat_map (fun e => match e with
                     | PlatformRequest n => [n]
                     | _ => []
                     end) log.

(** The clock domains an output was requested for, over all generators, in
    request order. *)
Definition driven_domains (log : list event) : list string :=
  flat_map (fun e => match e with
                     | CreateClkout _ cd _ _ _ => [cd]
                     | _ => []
                     end) log.

(** The reference clocks registered, with the generator they feed. *)
Definition clkins (log : list event) : list (string * ClockSource * float) :=
  flat_map (fun e => match e with
                     | RegisterClkin p clk f => [(p, clk, f)]
                     | _ => []
                     end) log.

(** The dividers of the internal oscillators instantiated. *)
Definition oscillators (log : list event) : list Z :=
  flat_map (fun e => match e with
                     | Oscillator d => [d]
                     | _ => []
                     end) log.

(** The calls that create or configure clocks. *)
Definition clock_event (e : event) : bool :=
  match e with
  | NewClockDomain _ | Oscillator _ | NewPLL _
  | RegisterClkin _ _ _ | CreateClkout _ _ _ _ _ => true
  | _ => false
  end.

Definition is_sdram (d : descriptor) : bool :=
  match d with
  | Sdram _ _ _ _ _ => true
  | _ => false
  end.

(** Which call a descriptor stands for. *)
Definition descriptor_kind (d : descriptor) : string :=
  match d with
  | SoCCore _ _ => "SoCCore"
  | SpiFlash _ _ _ => "add_spi_flash"
  | Sdram _ _ _ _ _ => "add_sdram"
  | VideoTerminal _ _ _ => "add_video_terminal"
  | VideoFramebuffer _ _ _ => "add_video_framebuffer"
  end.

(** The keyword arguments of the [BaseSoC(...)] call in [main]. *)
Definition soc_config (args : cmdline) : config :=
  {| board := arg_board args;
     revision := arg_revision args;
     toolchain := arg_toolchain args;
     sys_clk_freq := arg_sys_clk_freq args;
     use_internal_osc := false;
     sdram_rate := arg_sdram_rate args;
     with_video_terminal := opt_video_terminal args;
     with_video_framebuffer := opt_video_framebuffer args;
     kw := soc_argdict args |}.

(** What [main] does after the SoC is built: [builder.build] under
    [args.build], [prog.load_bitstream] under [args.load]. *)
Definition build_steps (args : cmdline) : list event :=
  ((if arg_build args then [Build] else [])
   ++ (if arg_load args then [LoadBitstream] else []))%list.

Definition set_kw (k : kwargs) (c : config) : config :=
  {| board := board c; revision := revision c; toolchain := toolchain c;
     sys_clk_freq := sys_clk_freq c; use_internal_osc := use_internal_osc c;
     sdram_rate := sdram_rate c;
     with_video_terminal := with_video_terminal c;
     with_video_framebuffer := with_video_framebuffer c;
     kw := k |}.

(** The defaults of the argument parser in [main], with [--build --load]. *)
Definition default_cmdline : cmdline :=
  {| arg_board := "i5"; arg_revision := "7.0"; arg_toolchain := "trellis";
     arg_sys_clk_freq := 60e6%float; arg_sdram_rate := "1:1";
     opt_video_terminal := false; opt_video_framebuffer := false;
     arg_build := true; arg_load := true;
     soc_argdict := default_kwargs |}.



(** ** The HDMI extension table [_hdmi_infos] *)

Record Subsignal : Type := { sub_name : string; sub_pin : string }.

Record Resource : Type := {
  res_name       : string;
  res_index      : Z;
  res_subsignals : list Subsignal;
  res_iostandard : string
}.

Definition _hdmi_infos : list Resource :=
  [ {| res_name := "hdmi"; res_index := 0;
       res_subsignals :=
         [ {| sub_name := "data0_p"; sub_pin := "N17" |};
           {| sub_name := "data0_n"; sub_pin := "L20" |};
           {| sub_name := "data1_p"; sub_pin := "P18" |};
           {| sub_name := "data1_n"; sub_pin := "N18" |};
           {| sub_name := "data2_p"; sub_pin := "P17" |};
           {| sub_name := "data2_n"; sub_pin := "T17" |};
           {| sub_name := "clk_p";   sub_pin := "L18" |};
           {| sub_name := "clk_n";   sub_pin := "M18" |} ];
       res_iostandard := "LVCMOS33" |} ].

(** The pins of all resources of a table. *)
Definition table_pins (t : list Resource) : list string :=
  flat_map (fun r => map sub_pin (res_subsignals r)) t.

(** The signal names of all resources of a table. *)
Definition table_signals (t : list Resource) : list string :=
  flat_map (fun r => map sub_name (res_subsignals r)) t.

(** ** Proof support *)

Lemma clko_ok_pixel : clko_ok 40e6%float = true.
Proof. reflexivity. Qed.

Lemma clko_ok_serial : clko_ok 200e6%float = true.
Proof. reflexivity. Qed.

(** Symbolic execution of a script: unfold the monad and the script, settle
    the generator's test on the two literal video frequencies, then let the
    string tests on literal names compute. *)
Ltac run_script :=
  cbv [exec main parse_args BaseSoC Platform_init crg_of _CRG create_clkout
       getattr_cd lift assert_ get_log bind ret raise emit
       set_video set_board set_kw soc_config
       board revision toolchain sys_clk_freq use_internal_osc sdram_rate
       with_video_terminal with_video_framebuffer kw
       integrated_main_ram_size l2_size
       arg_board arg_revision arg_toolchain arg_sys_clk_freq arg_sdram_rate
       opt_video_terminal opt_video_framebuffer arg_build arg_load soc_argdict];
  rewrite ?clko_ok_pixel, ?clko_ok_serial;
  cbn.

(** Case split on the memory timing mode as the script tests it. *)
Ltac split_rate rate :=
  let E := fresh "Erate" in
  destruct (rate =? "1:2")%string eqn:E.

(** Membership in a literal list: one case per position. *)
Ltac in_log H :=
  cbn in H;
  repeat match type of H with
         | _ \/ _ => destruct H as [H | H]
         | False => contradiction
         end.

(** No name occurs twice in a literal list of names. *)
Ltac nodup_names :=
  repeat (constructor; [cbn; intros H; in_log H; discriminate H|]);
  constructor.

(** Case split on the generator's range test of the system frequency and of
    its double. *)
Ltac split_range f :=
  let E1 := fresh "Ef" in
  let E2 := fresh "E2f" in
  destruct (clko_ok f) eqn:E1; cbn;
  try (destruct (clko_ok (2 * f)%float) eqn:E2; cbn).

(** Rewriting with what is known of the range tests, then computing on. *)
Ltac settle Hf H2f := rewrite ?Hf, ?H2f; cbn.

Lemma mem_In (x : string) (l : list string) : mem x l = true -> In x l.
Proof.
  unfold mem. rewrite existsb_exists.
  intros (y & Hy & E). apply String.eqb_eq in E. now subst.
Qed.

Lemma ordered_from_sound :
  forall pre created driven d post x,
    ordered_from created driven (pre ++ Subsystem d :: post) = true ->
    In x (descriptor_domains d) ->
    (In x created \/ In x (clock_domains pre)) /\
    (In x driven \/ In x (driven_domains pre)).
Proof.
  induction pre as [|e pre IH]; intros created driven d post x Hord Hx.
  - cbn in Hord. apply andb_true_iff in Hord as [Hall _].
    rewrite forallb_forall in Hall. specialize (Hall x Hx).
    apply andb_true_iff in Hall as [Hc Hd].
    split; left; now apply mem_In.
  - destruct e; cbn in Hord |- *;
      try (now apply IH with (1 := Hord)).
    + destruct (IH _ _ _ _ _ Hord Hx) as [[[<- | H] | H] H']; auto.
    + destruct (IH _ _ _ _ _ Hord Hx) as [H' [[<- | H] | H]]; auto.
    + apply andb_true_iff in Hord as [_ Hord]. now apply IH with (1 := Hord).
Qed.

(** Strictly below excludes above-or-equal, on specification floats. *)
Lemma SFltb_not_SFleb (a b : spec_float) :
  SFltb a b = true -> SFleb b a = false.
Proof.
  unfold SFltb, SFleb.
  destruct a as [s|s| |s m e], b as [s'|s'| |s' m' e'];
    try destruct s; try destruct s'; cbn; intros H;
    try discriminate H; try reflexivity.
  - rewrite (Z.compare_antisym e e').
    destruct (e ?= e')%Z; cbn in *; try discriminate H; try reflexivity.
    fold (Pos.compare m m') in H. fold (Pos.compare m' m).
    rewrite (Pos.compare_antisym m m').
    destruct (m ?= m')%positive; cbn in *; try discriminate H; reflexivity.
  - rewrite (Z.compare_antisym e e').
    destruct (e ?= e')%Z; cbn in *; try discriminate H; try reflexivity.
    fold (Pos.compare m m') in H. fold (Pos.compare m' m).
    rewrite (Pos.compare_antisym m m').
    destruct (m ?= m')%positive; cbn in *; try discriminate H; reflexivity.
Qed.

(** A frequency above the generator's maximum is outside its range. *)
Lemma above_max_out_of_range (x : float) :
  (clko_freq_max <? x)%float = true -> clko_ok x = false.
Proof.
  unfold clko_ok. rewrite ltb_spec, !leb_spec. intros H.
  apply SFltb_not_SFleb in H. rewrite H. apply andb_false_r.
Qed.

(** A frequency that is zero or negative is below the generator's range. *)
Lemma nonpositive_out_of_range (x : float) :
  (x <=? 0)%float = true -> clko_ok x = false.
Proof.
  unfold clko_ok. rewrite !leb_spec.
  assert (Hlo : Prim2SF clko_freq_min = S754_finite false 6710886400000000 (-31))
    by (vm_compute; reflexivity).
  assert (Hz : Prim2SF 0 = S754_zero false) by (vm_compute; reflexivity).
  rewrite Hlo, Hz. intros H. apply andb_false_iff. left.
  destruct (Prim2SF x) as [s|s| |s m e]; try destruct s;
    try (cbv in H; discriminate H); reflexivity.
Qed.

(** ** The default build with the video terminal *)

(** 60 MHz, mode "1:1", board "i5", [with_video_terminal]: the calls in
    order. *)
Example scenario_60MHz_terminal :
  exec (BaseSoC (set_video true false default_config))
  = Done tt
      [ Platform "i5" "7.0" "trellis"; AddExtension "hdmi";
        NewClockDomain "cd_sys"; NewClockDomain "cd_sys_ps";
        PlatformRequest "clk25"; PlatformRequest "cpu_reset_n";
        NewPLL "pll"; RegisterClkin "pll" Clk25Pin 25e6%float;
        CreateClkout "pll" "sys" 60e6%float None None;
        CreateClkout "pll" "sys_ps" 60e6%float (Some 180) None;
        NewPLL "video_pll"; RegisterClkin "video_pll" Clk25Pin 25e6%float;
        NewClockDomain "cd_hdmi"; NewClockDomain "cd_hdmi5x";
        CreateClkout "video_pll" "hdmi" 40e6%float None (Some 0%float);
        CreateClkout "video_pll" "hdmi5x" 200e6%float None (Some 0%float);
        Subsystem (SoCCore 60000000 "LiteX SoC on Colorlight I5");
        Subsystem (SpiFlash "1x" GD25Q16 "READ_1_1_1");
        PlatformRequest "sdram";
        Subsystem (Sdram GENSDRPHY 60e6%float "1:1" 8192 false);
        PlatformRequest "hdmi";
        Subsystem (VideoTerminal "hdmi" "800x600@60Hz" "hdmi") ].
Proof. vm_compute. reflexivity. Qed.

(** The platform refuses a revision the board does not list, before any
    call is made. *)
Example revision_not_listed :
  exec (BaseSoC {| board := "i9"; revision := "7.0"; toolchain := "trellis";
                   sys_clk_freq := 60e6%float; use_internal_osc := false;
                   sdram_rate := "1:1";
                   with_video_terminal := false;
                   with_video_framebuffer := false;
                   kw := default_kwargs |})
  = Raised Py.AssertionError [].
Proof. vm_compute. reflexivity. Qed.

Example int_truncates_and_raises :
  Py.int 60e6%float = inr 60000000 /\
  Py.int (-2.5)%float = inr (-2) /\
  Py.int 0.75%float = inr 0 /\
  Py.int nan = inl (Py.ValueError "cannot convert float NaN to integer") /\
  Py.int infinity
    = inl (Py.OverflowError "cannot convert float infinity to integer").
Proof. repeat split; vm_compute; reflexivity. Qed.

Example internal_oscillator_is_62MHz :
  pll_clkin "pll" [RegisterClkin "pll" OscgSignal (310e6 / 5)%float]
  = [(OscgSignal, 62e6%float)].
Proof. vm_compute. reflexivity. Qed.

(** ** Clock generation: [_CRG] *)

Section ClockGeneration.

Variable f : float.                  (* sys_clk_freq *)
Variables osc usb video : bool.      (* use_internal_osc, with_usb_pll, with_video_pll *)

(** [_CRG] returns only for a frequency in the generator's range, in mode
    "1:2" with its double in the range as well. *)
Lemma _CRG_done_inv (rate : string) (log : list event) :
  exec (_CRG f osc usb video rate) = Done tt log ->
  clko_ok f = true /\
  ((rate =? "1:2")%string = true -> clko_ok (2 * f)%float = true).
Proof.
  run_script; split_rate rate; destruct osc, video; cbn; split_range f;
    intros H; try discriminate H; (split; [reflexivity|]); intros H2;
    try discriminate H2; reflexivity.
Qed.


(** C1: for every target system frequency in the generator's output range
    (3.125 MHz to 400 MHz; in mode "1:2" with its double in the range too),
    [_CRG] returns, creates the clock domain named "sys", and the one output
    requested for "sys" is the first of the main generator, at exactly the
    target frequency, with no phase and no margin passed. *)
Theorem sys_domain_at_target_freq :
  forall rate : string,
    clko_ok f = true ->
    ((rate =? "1:2")%string = true -> clko_ok (2 * f)%float = true) ->
    exists log,
      exec (_CRG f osc usb video rate) = Done tt log /\
      In "sys" (clock_domains log) /\
      hd_error (pll_outputs "pll" log) = Some (cds "sys" f None None) /\
      (forall p f' ph mg, In (CreateClkout p "sys" f' ph mg) log ->
         p = "pll" /\ f' = f /\ ph = None /\ mg = None).
Proof.
  intros rate Hf H2f.
  run_script; split_rate rate;
    [specialize (H2f eq_refl)|clear H2f; pose proof Hf as H2f];
    destruct osc, video; cbn; settle Hf H2f;
    (eexists; split; [reflexivity|]);
    (split; [cbn; tauto|]); (split; [reflexivity|]);
    intros p f' ph mg H; in_log H; try discriminate H;
    injection H as <- <- <- <-; auto.
Qed.

(** C2: for a target frequency in the generator's range.  In mode "1:2",
    if twice the target frequency is in the range as well, the main generator
    is asked for "sys", for "sys2x" at twice the target frequency and for
    "sys2x_ps" at twice the target frequency with a 180 degree phase, and no
    "sys_ps" domain exists; in mode "1:1" it is asked for "sys" and for
    "sys_ps" at the target frequency with a 180 degree phase, and neither
    "sys2x" nor "sys2x_ps" exists; whatever the mode string, in a run that
    returns "sys_ps" never coexists with "sys2x" or "sys2x_ps". *)
Theorem memory_timing_shapes :
    clko_ok f = true ->
    (clko_ok (2 * f)%float = true ->
     exists log,
        exec (_CRG f osc usb video "1:2") = Done tt log /\
        pll_outputs "pll" log
          = [ cds "sys" f None None;
              cds "sys2x" (2 * f)%float None None;
              cds "sys2x_ps" (2 * f)%float (Some 180) None ] /\
        clock_domains log
          = (["sys"; "sys2x"; "sys2x_ps"] ++ display_domains video)%list /\
        ~ In "sys_ps" (clock_domains log)) /\
    (exists log,
        exec (_CRG f osc usb video "1:1") = Done tt log /\
        pll_outputs "pll" log
          = [ cds "sys" f None None;
              cds "sys_ps" f (Some 180) None ] /\
        clock_domains log = (["sys"; "sys_ps"] ++ display_domains video)%list /\
        ~ In "sys2x" (clock_domains log) /\
        ~ In "sys2x_ps" (clock_domains log)) /\
    (forall rate log,
        exec (_CRG f osc usb video rate) = Done tt log ->
        ~ (In "sys_ps" (clock_domains log) /\
           (In "sys2x" (clock_domains log) \/ In "sys2x_ps" (clock_domains log)))).
Proof.
  intros Hf. split; [|split].
  - intros H2f. destruct osc, video; run_script; settle Hf H2f;
      (eexists; split; [reflexivity|]); cbn;
      (repeat split; try reflexivity);
      intros H; in_log H; discriminate H.
  - destruct osc, video; run_script; settle Hf Hf;
      (eexists; split; [reflexivity|]); cbn;
      (repeat split; try reflexivity);
      intros H; in_log H; discriminate H.
  - intros rate log. run_script; split_rate rate; destruct osc, video; cbn;
      split_range f; intros Hrun; try discriminate Hrun;
      injection Hrun as <-; cbn;
      intros [H1 H2];
      repeat match goal with
             | H : _ \/ _ |- _ => destruct H
             | H : False |- _ => contradiction
             | H : _ = _ |- _ => discriminate H
             end.
Qed.

(** C5, as the code has it: [_CRG] has no range check of its own and no
    error type for it; the generator's assertion does the refusing.  For a
    target frequency that is zero, negative or above the generator's maximum
    of 400 MHz the run stops with [AssertionError] at the first output
    request: the main generator exists, no output has been requested, and no
    plan is returned. *)
Theorem crg_refuses_out_of_range_frequency :
  forall rate : string,
    (f <=? 0)%float = true \/ (clko_freq_max <? f)%float = true ->
    exists log,
      exec (_CRG f osc usb video rate) = Raised Py.AssertionError log /\
      plls log = ["pll"] /\
      driven_domains log = [].
Proof.
  intros rate Hout.
  assert (Hf : clko_ok f = false)
    by (destruct Hout; [now apply nonpositive_out_of_range
                       |now apply above_max_out_of_range]).
  run_script; split_rate rate; destruct osc, video; cbn; settle Hf Hf;
    eexists; repeat split; reflexivity.
Qed.


End ClockGeneration.

Lemma sys_domain_at_target_freq_witness :
  exists log,
    exec (_CRG 60e6%float false false false "1:1") = Done tt log /\
    hd_error (pll_outputs "pll" log)
      = Some (cds "sys" 60e6%float None None).
Proof.
  destruct (sys_domain_at_target_freq 60e6%float false false false "1:1"
              eq_refl (fun H => False_ind _ (diff_false_true H)))
    as (log & Hrun & _ & Hhd & _).
  exists log. split; assumption.
Defined.

(** C1, counterexample: 1 MHz is positive and below the generator's
    ceiling, yet [_CRG] stops with [AssertionError] at the request for "sys"
    and no output is requested; at 250 MHz in mode "1:2" it stops at the
    request for "sys2x" (500 MHz).  No plan is returned. *)
Lemma positive_frequency_refused :
  (0 <? 1e6)%float = true /\ (1e6 <? clko_freq_max)%float = true /\
  exec (_CRG 1e6%float false false false "1:1")
    = Raised Py.AssertionError
        [ NewClockDomain "cd_sys"; NewClockDomain "cd_sys_ps";
          PlatformRequest "clk25"; PlatformRequest "cpu_reset_n";
          NewPLL "pll"; RegisterClkin "pll" Clk25Pin 25e6%float ] /\
  (0 <? 250e6)%float = true /\ (250e6 <? clko_freq_max)%float = true /\
  is_done (exec (_CRG 250e6%float false false false "1:2")) = false.
Proof. repeat split; vm_compute; reflexivity. Qed.

(** C2, counterexample: at 250 MHz, a frequency inside the generator's
    range, mode "1:2" yields neither "sys2x" nor "sys2x_ps": the run stops
    with [AssertionError] at the request for "sys2x" at 500 MHz, after the
    request for "sys", and returns no plan. *)
Lemma double_rate_out_of_range_refused :
  clko_ok 250e6%float = true /\
  exec (_CRG 250e6%float false false false "1:2")
    = Raised Py.AssertionError
        [ NewClockDomain "cd_sys"; NewClockDomain "cd_sys2x";
          NewClockDomain "cd_sys2x_ps";
          PlatformRequest "clk25"; PlatformRequest "cpu_reset_n";
          NewPLL "pll"; RegisterClkin "pll" Clk25Pin 25e6%float;
          CreateClkout "pll" "sys" 250e6%float None None ].
Proof. split; vm_compute; reflexivity. Qed.

Lemma memory_timing_shapes_witness :
  (exists log,
      exec (_CRG 60e6%float false false false "1:2") = Done tt log /\
      map cds_name (pll_outputs "pll" log) = ["sys"; "sys2x"; "sys2x_ps"]) /\
  (exists log,
      exec (_CRG 60e6%float false false false "1:1") = Done tt log /\
      map cds_name (pll_outputs "pll" log) = ["sys"; "sys_ps"]).
Proof.
  destruct (memory_timing_shapes 60e6%float false false false eq_refl)
    as (H12 & H11 & _).
  split.
  - destruct (H12 eq_refl) as (log & Hrun & Hout & _).
    exists log. split; [exact Hrun|]. rewrite Hout. reflexivity.
  - destruct H11 as (log & Hrun & Hout & _).
    exists log. split; [exact Hrun|]. rewrite Hout. reflexivity.
Defined.

(** C5, counterexample: for a target frequency of zero, for a negative one
    and for one of a terahertz the run does fail and returns no plan, but
    with the interpreter's [AssertionError] from the generator's own range
    assertion; the script has no configuration error of its own to raise. *)
Lemma out_of_range_frequency_raises_assertion :
  (exists log, exec (_CRG 0%float false false false "1:1")
               = Raised Py.AssertionError log) /\
  (exists log, exec (_CRG (-60e6)%float false false false "1:1")
               = Raised Py.AssertionError log) /\
  (exists log, exec (_CRG 1e12%float false false false "1:1")
               = Raised Py.AssertionError log).
Proof. repeat split; eexists; vm_compute; reflexivity. Qed.

Lemma crg_refuses_out_of_range_frequency_witness :
  exists log,
    exec (_CRG 0%float false false true "1:2") = Raised Py.AssertionError log /\
    driven_domains log = [].
Proof.
  destruct (crg_refuses_out_of_range_frequency 0%float false false true "1:2"
              (or_introl eq_refl))
    as (log & Hrun & _ & Hnone).
  exists log. split; assumption.
Defined.



(** ** Further properties of clock generation *)

(** X1: the reference clock.  In a run of [_CRG] that returns: with the
    internal oscillator, one OSCG with divider 5 is instantiated, the "clk25"
    pin is never requested, and every generator created is fed from the
    oscillator at 62 MHz; without it, no oscillator is instantiated, "clk25"
    is requested once, and every generator is fed from that pin at 25 MHz.
    Each generator gets exactly one reference clock. *)
Theorem reference_clock_shared_by_generators :
  forall (f : float) (osc usb video : bool) (rate : string) (log : list event),
    exec (_CRG f osc usb video rate) = Done tt log ->
    oscillators log = (if osc then [5] else []) /\
    requests log = (if osc then ["cpu_reset_n"] else ["clk25"; "cpu_reset_n"]) /\
    clkins log
      = map (fun p => if osc then (p, OscgSignal, 62e6%float)
                      else (p, Clk25Pin, 25e6%float))
            (plls log) /\
    plls log = (if video then ["pll"; "video_pll"] else ["pll"]).
Proof.
  intros f osc usb video rate log.
  run_script; split_rate rate; destruct osc, video; cbn; split_range f;
    intros Hrun; try discriminate Hrun; injection Hrun as <-;
    repeat split; reflexivity.
Qed.

Lemma reference_clock_shared_by_generators_witness :
  exists log,
    exec (_CRG 60e6%float true false true "1:1") = Done tt log /\
    clkins log = [ ("pll", OscgSignal, 62e6%float);
                   ("video_pll", OscgSignal, 62e6%float) ].
Proof.
  eexists. split; [vm_compute; reflexivity|].
  destruct (reference_clock_shared_by_generators
              60e6%float true false true "1:1" _ eq_refl)
    as (_ & _ & Hclk & _).
  exact Hclk.
Defined.

(** X2: a memory timing mode other than "1:2" is not rejected: whatever
    the string, clock generation makes exactly the calls of mode "1:1". *)
Theorem unknown_rate_generates_single_rate_clocks :
  forall (f : float) (osc usb video : bool) (rate : string),
    rate <> "1:2" ->
    exec (_CRG f osc usb video rate) = exec (_CRG f osc usb video "1:1").
Proof.
  intros f osc usb video rate Hrate.
  apply String.eqb_neq in Hrate.
  run_script. rewrite Hrate. destruct osc, video; reflexivity.
Qed.

Lemma unknown_rate_generates_single_rate_clocks_witness :
  exec (_CRG 60e6%float false false true "1:4")
  = exec (_CRG 60e6%float false false true "1:1").
Proof.
  apply unknown_rate_generates_single_rate_clocks. discriminate.
Defined.

(** X3: in a run of [_CRG] that returns, every clock domain created is
    driven by exactly one generator output and no output goes to a domain
    that was not created: the domains outputs are requested for are the
    domains created, in the same order, and no domain name occurs twice. *)
Theorem every_domain_driven_once :
  forall (f : float) (osc usb video : bool) (rate : string) (log : list event),
    exec (_CRG f osc usb video rate) = Done tt log ->
    driven_domains log = clock_domains log /\
    NoDup (clock_domains log).
Proof.
  intros f osc usb video rate log.
  run_script; split_rate rate; destruct osc, video; cbn; split_range f;
    intros Hrun; try discriminate Hrun; injection Hrun as <-;
    (split; [reflexivity|]); cbn; nodup_names.
Qed.

Lemma every_domain_driven_once_witness :
  exists log,
    exec (_CRG 60e6%float false false true "1:2") = Done tt log /\
    driven_domains log = clock_domains log /\
    clock_domains log = ["sys"; "sys2x"; "sys2x_ps"; "hdmi"; "hdmi5x"].
Proof.
  eexists. split; [vm_compute; reflexivity|].
  destruct (every_domain_driven_once 60e6%float false false true "1:2" _ eq_refl)
    as (Heq & _).
  split; [exact Heq|reflexivity].
Defined.

(** X4: in a run of [_CRG] that returns, a phase-shifted output always
    accompanies a domain of the same generator at exactly the same frequency:
    every output with a phase has phase 180, is named after another output
    with the suffix "_ps", and that other output is requested from the same
    generator, at the same frequency, without phase. *)
Theorem phase_shifted_companion_matches_base :
  forall (f : float) (osc usb video : bool) (rate : string) (log : list event),
    exec (_CRG f osc usb video rate) = Done tt log ->
    forall p cd f' ph mg,
      In (CreateClkout p cd f' (Some ph) mg) log ->
      ph = 180 /\
      exists base,
        cd = base ++ "_ps" /\
        In (CreateClkout p base f' None mg) log.
Proof.
  intros f osc usb video rate log.
  run_script; split_rate rate; destruct osc, video; cbn; split_range f;
    intros Hrun; try discriminate Hrun; injection Hrun as <-;
    intros p cd f' ph mg H; in_log H; try discriminate H;
    injection H as <- <- <- <- <-;
    (split; [reflexivity|]);
    first [ exists "sys"; split; [reflexivity|]; cbn; tauto
          | exists "sys2x"; split; [reflexivity|]; cbn; tauto ].
Qed.

Lemma phase_shifted_companion_matches_base_witness :
  exists log,
    exec (_CRG 60e6%float false false false "1:2") = Done tt log /\
    exists base,
      "sys2x_ps" = base ++ "_ps" /\
      In (CreateClkout "pll" base 120e6%float None None) log.
Proof.
  eexists. split; [vm_compute; reflexivity|].
  refine (proj2 (phase_shifted_companion_matches_base
                   60e6%float false false false "1:2" _ eq_refl
                   "pll" "sys2x_ps" 120e6%float 180 None _)).
  cbn. tauto.
Defined.

(** X5: the frequency margin.  In a run of [_CRG] that returns, the
    outputs of the main generator are requested without a margin argument
    (the generator's default tolerance applies); the two outputs of the video
    generator are requested with margin 0 and without phase; no other
    generator is asked for an output. *)
Theorem margin_only_on_video_outputs :
  forall (f : float) (osc usb video : bool) (rate : string) (log : list event),
    exec (_CRG f osc usb video rate) = Done tt log ->
    forall p cd f' ph mg,
      In (CreateClkout p cd f' ph mg) log ->
      (p = "pll" /\ mg = None) \/
      (p = "video_pll" /\ mg = Some 0%float /\ ph = None /\ video = true).
Proof.
  intros f osc usb video rate log.
  run_script; split_rate rate; destruct osc, video; cbn; split_range f;
    intros Hrun; try discriminate Hrun; injection Hrun as <-;
    intros p cd f' ph mg H; in_log H; try discriminate H;
    injection H as <- <- <- <- <-; auto.
Qed.

Lemma margin_only_on_video_outputs_witness :
  exists log,
    exec (_CRG 60e6%float false false true "1:1") = Done tt log /\
    ((("video_pll" : string) = "pll" /\ Some 0%float = None) \/
     (("video_pll" : string) = "video_pll" /\ Some 0%float = Some 0%float
      /\ (None : option Z) = None /\ true = true)).
Proof.
  eexists. split; [vm_compute; reflexivity|].
  apply (margin_only_on_video_outputs 60e6%float false false true "1:1" _ eq_refl
           "video_pll" "hdmi" 40e6%float None (Some 0%float)).
  cbn. tauto.
Defined.

(** ** Display clock domains *)



(** ** Subsystem composition: [BaseSoC] *)

(** What a run of [BaseSoC] that returns tells about its configuration: the
    platform accepted board and revision, the generator accepted the
    frequencies, [int(sys_clk_freq)] is defined and a flash module is
    bound. *)
Lemma BaseSoC_done_inv (c : config) (log : list event) :
  exec (BaseSoC c) = Done tt log ->
  platform_check (Py.lower (board c)) (revision c) = None /\
  clko_ok (sys_clk_freq c) = true /\
  ((sdram_rate c =? "1:2")%string = true ->
   clko_ok (2 * sys_clk_freq c)%float = true) /\
  exists z m,
    Py.int (sys_clk_freq c) = inr z /\
    import_SpiFlashModule (Py.lower (board c)) = Some m.
Proof.
  destruct c as [b rev tc f osc rate t fb [ram l2]]; cbn.
  run_script.
  destruct (platform_check (Py.lower b) rev) as [e|]; cbn; [discriminate|].
  split_rate rate; destruct osc, t, fb; cbn; split_range f;
    try discriminate;
    (destruct (Py.int f) as [e|z]; cbn; [discriminate|]);
    (destruct (import_SpiFlashModule (Py.lower b)) as [m|]; cbn; [|discriminate]);
    intros _; (do 2 (split; [reflexivity|])); (split; [|now exists z, m]);
    intros H; try discriminate H; reflexivity.
Qed.

(** Running [BaseSoC] on a configuration known to return, up to the
    remaining case distinctions. *)
Ltac soc_returned c log Hrun :=
  let Hplat := fresh "Hplat" in
  let Hf := fresh "Hf" in
  let H2f := fresh "H2f" in
  let z := fresh "z" in
  let m := fresh "m" in
  let Hint := fresh "Hint" in
  let Himp := fresh "Himp" in
  destruct (BaseSoC_done_inv c log Hrun)
    as (Hplat & Hf & H2f & z & m & Hint & Himp);
  destruct c as [b rev tc f osc rate t fb [ram l2]]; cbn in Hplat, Hf, H2f, Hint, Himp;
  revert Hrun; run_script; rewrite ?Hplat; cbn;
  (split_rate rate; [specialize (H2f eq_refl)|clear H2f; pose proof Hf as H2f]);
  destruct osc, t, fb; cbn; rewrite ?Hf, ?H2f; cbn;
  rewrite ?Hint; cbn; rewrite ?Himp; cbn.

(** C7: in every plan [BaseSoC] returns, the first subsystem descriptor is
    the core ([SoCCore]), and wherever a descriptor stands in the log, every
    clock domain it is bound to was created earlier in the log and a
    generator output for it was requested earlier in the log. *)
Theorem core_first_and_domains_before_use :
  forall (c : config) (log : list event),
    exec (BaseSoC c) = Done tt log ->
    (exists z,
        Py.int (sys_clk_freq c) = inr z /\
        hd_error (descriptors log)
          = Some (SoCCore z ("LiteX SoC on Colorlight "
                               ++ Py.upper (Py.lower (board c))))) /\
    (forall pre d post x,
        log = (pre ++ Subsystem d :: post)%list ->
        In x (descriptor_domains d) ->
        In x (clock_domains pre) /\ In x (driven_domains pre)).
Proof.
  intros c log Hrun.
  assert (Hlog : (exists z,
                     Py.int (sys_clk_freq c) = inr z /\
                     hd_error (descriptors log)
                     = Some (SoCCore z ("LiteX SoC on Colorlight "
                                          ++ Py.upper (Py.lower (board c)))))
                 /\ ordered_from [] [] log = true).
  { soc_returned c log Hrun;
      destruct (Py.truthy ram); cbn;
      intros [= <-]; (split; [exists z; split; reflexivity|reflexivity]). }
  destruct Hlog as [Hhd Hord]. split; [exact Hhd|].
  intros pre d post x -> Hx.
  destruct (ordered_from_sound pre [] [] d post x Hord Hx) as [[[] | H] [[] | H']].
  split; assumption.
Qed.

Lemma core_first_and_domains_before_use_witness :
  exists log,
    exec (BaseSoC (set_video true false default_config)) = Done tt log /\
    hd_error (descriptors log)
      = Some (SoCCore 60000000 "LiteX SoC on Colorlight I5") /\
    (forall pre post x,
        log = (pre ++ Subsystem (VideoTerminal "hdmi" "800x600@60Hz" "hdmi") :: post)%list ->
        In x ["hdmi"; "hdmi"; "hdmi5x"] ->
        In x (clock_domains pre) /\ In x (driven_domains pre)).
Proof.
  eexists. split; [vm_compute; reflexivity|].
  destruct (core_first_and_domains_before_use
              (set_video true false default_config) _ eq_refl)
    as [(z & Hint & Hhd) Hord].
  split.
  - vm_compute in Hint. injection Hint as <-. exact Hhd.
  - intros pre post x Hlog Hx. exact (Hord pre _ post x Hlog Hx).
Defined.

(** Rewriting a run of [BaseSoC] with what is known of its configuration. *)
Ltac soc_step Hplat Hf H2f Hint Himp :=
  rewrite ?Hplat; cbn; rewrite ?Hf, ?H2f; cbn;
  rewrite ?Hint; cbn; rewrite ?Himp; cbn.

(** C8: with both display flags unset, a plan [BaseSoC] returns has no
    display call at all: no "hdmi" or "hdmi5x" clock domain, no second
    generator, no display descriptor; and it is the returned plan of any
    other setting of the two flags with the display calls taken out. *)
Theorem no_display_when_flags_unset :
  forall (c : config) (log : list event),
    with_video_terminal c = false ->
    with_video_framebuffer c = false ->
    exec (BaseSoC c) = Done tt log ->
    existsb display_event log = false /\
    ~ In "hdmi" (clock_domains log) /\
    ~ In "hdmi5x" (clock_domains log) /\
    plls log = ["pll"] /\
    pll_outputs "video_pll" log = [] /\
    filter display_descriptor (descriptors log) = [] /\
    (forall t' fb' log',
        exec (BaseSoC (set_video t' fb' c)) = Done tt log' ->
        filter (fun e => negb (display_event e)) log' = log).
Proof.
  intros c log Ht Hfb Hrun.
  destruct (BaseSoC_done_inv c log Hrun)
    as (Hplat & Hf & H2f & z & m & Hint & Himp).
  destruct c as [b rev tc f osc rate t fb [ram l2]]; cbn in *. subst t fb.
  revert Hrun. run_script. rewrite ?Hplat; cbn.
  (split_rate rate; [specialize (H2f eq_refl)|clear H2f; pose proof Hf as H2f]);
    destruct osc; soc_step Hplat Hf H2f Hint Himp;
    destruct (Py.truthy ram); cbn; intros [= <-];
    (split; [reflexivity|]);
    (split; [intros H; in_log H; discriminate H|]);
    (split; [intros H; in_log H; discriminate H|]);
    (do 3 (split; [reflexivity|]));
    intros [|] [|] log'; soc_step Hplat Hf H2f Hint Himp;
    intros [= <-]; reflexivity.
Qed.

Lemma no_display_when_flags_unset_witness :
  exists log,
    exec (BaseSoC default_config) = Done tt log /\
    existsb display_event log = false /\
    plls log = ["pll"].
Proof.
  eexists. split; [vm_compute; reflexivity|].
  destruct (no_display_when_flags_unset default_config _ eq_refl eq_refl eq_refl)
    as (Hnone & _ & _ & Hplls & _).
  split; assumption.
Defined.

(** C10: with [with_video_framebuffer] set and [with_video_terminal]
    unset, the outcome of [BaseSoC] is the outcome of the terminal flag
    alone; in a plan it returns, the one display descriptor is the video
    terminal with timings 800x600@60Hz on clock domain "hdmi", it is the last
    descriptor, and no framebuffer descriptor is in the plan. *)
Theorem framebuffer_flag_gives_video_terminal :
  forall (c : config) (log : list event),
    exec (BaseSoC (set_video false true c)) = Done tt log ->
    exec (BaseSoC (set_video true false c)) = Done tt log /\
    filter display_descriptor (descriptors log)
      = [VideoTerminal "hdmi" "800x600@60Hz" "hdmi"] /\
    last (descriptors log) (SoCCore 0 "")
      = VideoTerminal "hdmi" "800x600@60Hz" "hdmi" /\
    (forall phy tm cd, ~ In (VideoFramebuffer phy tm cd) (descriptors log)).
Proof.
  intros c log Hrun.
  destruct (BaseSoC_done_inv _ log Hrun)
    as (Hplat & Hf & H2f & z & m & Hint & Himp).
  destruct c as [b rev tc f osc rate t fb [ram l2]]; cbn in *.
  revert Hrun. run_script. rewrite ?Hplat; cbn.
  (split_rate rate; [specialize (H2f eq_refl)|clear H2f; pose proof Hf as H2f]);
    destruct osc; soc_step Hplat Hf H2f Hint Himp;
    destruct (Py.truthy ram); cbn; intros [= <-];
    (do 3 (split; [reflexivity|]));
    intros phy tm cd H; in_log H; discriminate H.
Qed.

Lemma framebuffer_flag_gives_video_terminal_witness :
  exists log,
    exec (BaseSoC (set_video false true default_config)) = Done tt log /\
    In (VideoTerminal "hdmi" "800x600@60Hz" "hdmi") (descriptors log).
Proof.
  assert (Hrun : exists log,
             exec (BaseSoC (set_video false true default_config)) = Done tt log)
    by (eexists; vm_compute; reflexivity).
  destruct Hrun as (log & Hrun).
  destruct (framebuffer_flag_gives_video_terminal default_config log Hrun)
    as (_ & Hdisp & _).
  exists log. split; [exact Hrun|].
  assert (H : In (VideoTerminal "hdmi" "800x600@60Hz" "hdmi")
                 (filter display_descriptor (descriptors log)))
    by (rewrite Hdisp; now left).
  apply filter_In in H. exact (proj1 H).
Defined.

(** ** Both display flags *)

(** C4, counterexample: [BaseSoC] with both display flags set returns, with
    the plan of the terminal flag alone. *)
Lemma both_display_flags_accepted :
  exec (BaseSoC (set_video true true default_config))
    = exec (BaseSoC (set_video true false default_config)) /\
  is_done (exec (BaseSoC (set_video true true default_config))) = true.
Proof. split; vm_compute; reflexivity. Qed.

(** [BaseSoC] reads the two display flags only through their disjunction. *)
Lemma BaseSoC_flags_disjunction (c : config) (t fb t' fb' : bool) :
  t || fb = t' || fb' ->
  exec (BaseSoC (set_video t fb c)) = exec (BaseSoC (set_video t' fb' c)).
Proof.
  intros H. unfold exec, BaseSoC, crg_of, set_video;
    cbn [board revision toolchain sys_clk_freq use_internal_osc sdram_rate
         with_video_terminal with_video_framebuffer kw].
  rewrite H. reflexivity.
Qed.

(** C4, as the script has it: [BaseSoC] takes the two display flags as a
    disjunction, so with both set its outcome is the outcome with either flag
    alone, and a plan it returns holds one video terminal; the combination is
    refused only by [main], whose argument parser exits with status 2 before
    anything is called. *)
Theorem both_display_flags_same_plan_as_one :
  forall (c : config) (argv : cmdline),
    opt_video_terminal argv = true ->
    opt_video_framebuffer argv = true ->
    exec (BaseSoC (set_video true true c))
      = exec (BaseSoC (set_video true false c)) /\
    exec (BaseSoC (set_video true true c))
      = exec (BaseSoC (set_video false true c)) /\
    (forall log,
        exec (BaseSoC (set_video true true c)) = Done tt log ->
        filter display_descriptor (descriptors log)
          = [VideoTerminal "hdmi" "800x600@60Hz" "hdmi"]) /\
    exec (main argv) = Raised (Py.SystemExit 2) [].
Proof.
  intros c argv Ht Hfb.
  split; [now apply BaseSoC_flags_disjunction|].
  split; [now apply BaseSoC_flags_disjunction|].
  split.
  - intros log Hrun.
    destruct (BaseSoC_done_inv _ log Hrun)
      as (Hplat & Hf & H2f & z & m & Hint & Himp).
    destruct c as [b rev tc f osc rate t fb [ram l2]]; cbn in *.
    revert Hrun. run_script. rewrite ?Hplat; cbn.
    (split_rate rate; [specialize (H2f eq_refl)|clear H2f; pose proof Hf as H2f]);
      destruct osc; soc_step Hplat Hf H2f Hint Himp;
      destruct (Py.truthy ram); cbn; intros [= <-]; reflexivity.
  - unfold exec, main, bind, parse_args. rewrite Ht, Hfb. reflexivity.
Qed.

Lemma both_display_flags_same_plan_as_one_witness :
  exec (BaseSoC (set_video true true default_config))
    = exec (BaseSoC (set_video true false default_config)) /\
  exec (main both_options) = Raised (Py.SystemExit 2) [].
Proof.
  destruct (both_display_flags_same_plan_as_one default_config both_options
              eq_refl eq_refl)
    as (Hone & _ & _ & Hmain).
  split; assumption.
Defined.

(** ** Boot-flash module selection *)

(** C9, counterexample: for the board identifier "i7" [BaseSoC] stops with
    the interpreter's unbound-variable error, not with an error the script
    raises, and it does so in the platform constructor, before any call is
    made; and the identifier "I5", which is neither "i5" nor "i9", is
    accepted. *)
Lemma unknown_board_unbound_name :
  exec (BaseSoC (set_board "i7" default_config))
    = Raised (Py.UnboundLocalError "device") [] /\
  is_done (exec (BaseSoC (set_board "I5" default_config))) = true.
Proof. split; vm_compute; reflexivity. Qed.

(** C9, as the script has it: the flash module is chosen by two string
    comparisons on the lower-cased board identifier.  A plan [BaseSoC]
    returns was built for an identifier that lower-cases to "i5" or to "i9",
    and holds the one flash descriptor with GD25Q16 for "i5" and with W25Q64
    for "i9".  For any other identifier nothing is looked up: [BaseSoC] stops
    in the platform constructor with the unbound-variable error on [device],
    before any call is made. *)
Theorem flash_module_by_lowercased_board :
  forall c : config,
    (forall log,
        exec (BaseSoC c) = Done tt log ->
        (Py.lower (board c) = "i5" /\
         filter (fun d => (descriptor_kind d =? "add_spi_flash")%string)
                (descriptors log)
           = [SpiFlash "1x" GD25Q16 "READ_1_1_1"]) \/
        (Py.lower (board c) = "i9" /\
         filter (fun d => (descriptor_kind d =? "add_spi_flash")%string)
                (descriptors log)
           = [SpiFlash "1x" W25Q64 "READ_1_1_1"])) /\
    (Py.lower (board c) <> "i5" -> Py.lower (board c) <> "i9" ->
     exec (BaseSoC c) = Raised (Py.UnboundLocalError "device") []).
Proof.
  intros c. split.
  - intros log Hrun.
    destruct (BaseSoC_done_inv _ log Hrun)
      as (Hplat & Hf & H2f & z & m & Hint & Himp).
    destruct c as [b rev tc f osc rate t fb [ram l2]]; cbn in *.
    assert (Hb : (Py.lower b = "i5" /\ m = GD25Q16)
                 \/ (Py.lower b = "i9" /\ m = W25Q64)).
    { revert Himp. unfold import_SpiFlashModule.
      destruct (String.eqb_spec (Py.lower b) "i9") as [E9|_].
      - intros [= <-]. now right.
      - destruct (String.eqb_spec (Py.lower b) "i5") as [E5|_].
        + intros [= <-]. now left.
        + discriminate. }
    revert Hrun. run_script. rewrite ?Hplat; cbn.
    (split_rate rate; [specialize (H2f eq_refl)|clear H2f; pose proof Hf as H2f]);
      destruct osc, t, fb; soc_step Hplat Hf H2f Hint Himp;
      destruct (Py.truthy ram); cbn; intros [= <-];
      (destruct Hb as [[Hb ->] | [Hb ->]];
       [left|right]; (split; [exact Hb|reflexivity])).
  - intros H5 H9.
    destruct c as [b rev tc f osc rate t fb [ram l2]]; cbn in *.
    assert (Hplat : platform_check (Py.lower b) rev
                    = Some (Py.UnboundLocalError "device")).
    { unfold platform_check.
      apply String.eqb_neq in H5, H9. now rewrite H5, H9. }
    run_script. rewrite Hplat. reflexivity.
Qed.

Lemma flash_module_by_lowercased_board_witness :
  (exists log,
      exec (BaseSoC (set_board "I5" default_config)) = Done tt log /\
      In (SpiFlash "1x" GD25Q16 "READ_1_1_1") (descriptors log)) /\
  exec (BaseSoC (set_board "colorlight" default_config))
    = Raised (Py.UnboundLocalError "device") [].
Proof.
  split.
  - eexists. split; [vm_compute; reflexivity|].
    destruct (proj1 (flash_module_by_lowercased_board
                       (set_board "I5" default_config)) _ eq_refl)
      as [[_ Hflash] | [H9 _]].
    + cbn. tauto.
    + vm_compute in H9. discriminate H9.
  - apply (proj2 (flash_module_by_lowercased_board
                    (set_board "colorlight" default_config)));
      vm_compute; discriminate.
Defined.

(** ** Further properties of [BaseSoC] *)

(** X7: the SDRAM is added only when no main RAM is integrated.  In a
    plan [BaseSoC] returns, with [integrated_main_ram_size] nonzero there is
    no SDRAM descriptor and the "sdram" pins are not requested; with it zero
    there is exactly one SDRAM descriptor and one request of the "sdram"
    pins: the half-rate PHY exactly in mode "1:2", the module built from
    [sys_clk_freq] and the mode string as given, the L2 cache size
    [l2_size] or 8192 when that key is absent, no reversed L2. *)
Theorem sdram_only_without_integrated_ram :
  forall (c : config) (log : list event),
    exec (BaseSoC c) = Done tt log ->
    (integrated_main_ram_size (kw c) <> 0 ->
       filter is_sdram (descriptors log) = [] /\
       ~ In "sdram" (requests log)) /\
    (integrated_main_ram_size (kw c) = 0 ->
       filter is_sdram (descriptors log)
         = [Sdram (if (sdram_rate c =? "1:2")%string
                   then HalfRateGENSDRPHY else GENSDRPHY)
                  (sys_clk_freq c) (sdram_rate c)
                  (match l2_size (kw c) with Some n => n | None => 8192 end)
                  false] /\
       count_occ string_dec (requests log) "sdram" = 1%nat).
Proof.
  intros c log Hrun.
  soc_returned c log Hrun; unfold Py.truthy;
    (destruct (Z.eqb_spec ram 0) as [->|Hram]); cbn;
    intros [= <-]; split; intros H0;
    try congruence; try (split; reflexivity);
    (split; [reflexivity|]); intros H; in_log H; discriminate H.
Qed.

Lemma sdram_only_without_integrated_ram_witness :
  (exists log,
      exec (BaseSoC default_config) = Done tt log /\
      filter is_sdram (descriptors log)
        = [Sdram GENSDRPHY 60e6%float "1:1" 8192 false]) /\
  (exists log,
      exec (BaseSoC (set_kw {| integrated_main_ram_size := 65536;
                               l2_size := None |} default_config))
        = Done tt log /\
      filter is_sdram (descriptors log) = []).
Proof.
  split.
  - eexists. split; [vm_compute; reflexivity|].
    destruct (sdram_only_without_integrated_ram default_config _ eq_refl)
      as [_ Hzero].
    exact (proj1 (Hzero eq_refl)).
  - eexists. split; [vm_compute; reflexivity|].
    destruct (sdram_only_without_integrated_ram
                (set_kw {| integrated_main_ram_size := 65536; l2_size := None |}
                        default_config) _ eq_refl)
      as [Hnonzero _].
    apply Hnonzero. discriminate.
Defined.

(** X8: the SDRAM PHY agrees with the clock plan.  In a plan [BaseSoC]
    returns, an SDRAM descriptor has the half-rate PHY exactly when the
    double-rate domain "sys2x" exists, and the full-rate PHY exactly when the
    phase-shifted system domain "sys_ps" exists. *)
Theorem sdram_phy_agrees_with_clock_domains :
  forall (c : config) (log : list event),
    exec (BaseSoC c) = Done tt log ->
    forall phy f r l2 rv,
      In (Sdram phy f r l2 rv) (descriptors log) ->
      (phy = HalfRateGENSDRPHY <-> In "sys2x" (clock_domains log)) /\
      (phy = GENSDRPHY <-> In "sys_ps" (clock_domains log)).
Proof.
  intros c log Hrun.
  soc_returned c log Hrun; destruct (Py.truthy ram); cbn;
    intros [= <-] phy f0 r l0 rv H; in_log H; try discriminate H;
    injection H as <- <- <- <- <-;
    (split; split; intros H; try discriminate H; try reflexivity;
     cbn; try tauto; in_log H; discriminate H).
Qed.

Lemma sdram_phy_agrees_with_clock_domains_witness :
  exists log,
    exec (BaseSoC default_config) = Done tt log /\
    In "sys_ps" (clock_domains log).
Proof.
  eexists. split; [vm_compute; reflexivity|].
  refine (proj1 (proj2 (sdram_phy_agrees_with_clock_domains default_config _ eq_refl
                          GENSDRPHY 60e6%float "1:1" 8192 false _)) eq_refl).
  do 2 right. left. reflexivity.
Defined.

(** X9: the order of the subsystems.  A plan [BaseSoC] returns holds the
    core first, the SPI flash second, then the SDRAM if no main RAM is
    integrated, then the video terminal if a display flag is set, and
    nothing else. *)
Theorem descriptor_order :
  forall (c : config) (log : list event),
    exec (BaseSoC c) = Done tt log ->
    map descriptor_kind (descriptors log)
    = (["SoCCore"; "add_spi_flash"]
       ++ (if integrated_main_ram_size (kw c) =? 0 then ["add_sdram"] else [])
       ++ (if with_video_terminal c || with_video_framebuffer c
           then ["add_video_terminal"] else []))%list.
Proof.
  intros c log Hrun.
  soc_returned c log Hrun; unfold Py.truthy;
    destruct (ram =? 0); cbn; intros [= <-]; reflexivity.
Qed.

Lemma descriptor_order_witness :
  exists log,
    exec (BaseSoC (set_video false true default_config)) = Done tt log /\
    map descriptor_kind (descriptors log)
    = ["SoCCore"; "add_spi_flash"; "add_sdram"; "add_video_terminal"].
Proof.
  eexists. split; [vm_compute; reflexivity|].
  exact (descriptor_order (set_video false true default_config) _ eq_refl).
Defined.

(** X10: every clock call of [BaseSoC] is made by its clock generation.
    A plan [BaseSoC] returns is the platform set-up, then the complete log of
    [_CRG] for the configuration, then calls none of which creates or
    configures a clock. *)
Theorem clocks_come_from_crg_only :
  forall (c : config) (log : list event),
    exec (BaseSoC c) = Done tt log ->
    exists crg_log rest,
      exec (crg_of c) = Done tt crg_log /\
      log = (Platform (Py.lower (board c)) (revision c) (toolchain c)
               :: AddExtension "hdmi" :: crg_log ++ rest)%list /\
      existsb clock_event rest = false.
Proof.
  intros c log Hrun.
  soc_returned c log Hrun; destruct (Py.truthy ram); cbn;
    intros [= <-]; eexists; eexists;
    (split; [reflexivity|]); split;
    try (cbn; reflexivity).
Qed.

Lemma clocks_come_from_crg_only_witness :
  exists log crg_log rest,
    exec (BaseSoC (set_video true false default_config)) = Done tt log /\
    exec (crg_of (set_video true false default_config)) = Done tt crg_log /\
    log = (Platform "i5" "7.0" "trellis" :: AddExtension "hdmi"
             :: crg_log ++ rest)%list /\
    existsb clock_event rest = false.
Proof.
  assert (Hrun : exists log,
             exec (BaseSoC (set_video true false default_config)) = Done tt log)
    by (eexists; vm_compute; reflexivity).
  destruct Hrun as (log & Hrun).
  destruct (clocks_come_from_crg_only
              (set_video true false default_config) log Hrun)
    as (crg_log & rest & Hcrg & Hlog & Hrest).
  exists log, crg_log, rest.
  split; [exact Hrun|]. split; [exact Hcrg|]. split; [exact Hlog|exact Hrest].
Defined.

(** X11: the board identifier is read case-insensitively: two
    identifiers with the same lower-case form give the same outcome of
    [BaseSoC], be it the same plan or the same exception. *)
Theorem board_identifier_case_insensitive :
  forall (c : config) (b1 b2 : string),
    Py.lower b1 = Py.lower b2 ->
    exec (BaseSoC (set_board b1 c)) = exec (BaseSoC (set_board b2 c)).
Proof.
  intros c b1 b2 Hb.
  unfold exec, BaseSoC, crg_of, set_board; cbn [board revision toolchain
    sys_clk_freq use_internal_osc sdram_rate with_video_terminal
    with_video_framebuffer kw].
  rewrite Hb. reflexivity.
Qed.

Lemma board_identifier_case_insensitive_witness :
  exec (BaseSoC (set_board "I9" default_config))
  = exec (BaseSoC (set_board "i9" default_config)).
Proof.
  apply board_identifier_case_insensitive. reflexivity.
Defined.

(** X12: no board resource is requested twice.  In a plan [BaseSoC]
    returns, the requested resources are pairwise distinct, the reset pin
    "cpu_reset_n" is always among them, and "hdmi" is among them exactly when
    a display flag is set. *)
Theorem platform_resources_requested_once :
  forall (c : config) (log : list event),
    exec (BaseSoC c) = Done tt log ->
    NoDup (requests log) /\
    In "cpu_reset_n" (requests log) /\
    (In "hdmi" (requests log)
     <-> with_video_terminal c || with_video_framebuffer c = true).
Proof.
  intros c log Hrun.
  soc_returned c log Hrun; destruct (Py.truthy ram); cbn;
    intros [= <-]; cbn;
    (split; [nodup_names|]); (split; [tauto|]);
    (split; [intros H; in_log H; try discriminate H; reflexivity
            | intros H; try discriminate H; tauto]).
Qed.

Lemma platform_resources_requested_once_witness :
  exists log,
    exec (BaseSoC (set_video true false default_config)) = Done tt log /\
    requests log = ["clk25"; "cpu_reset_n"; "sdram"; "hdmi"] /\
    NoDup (requests log).
Proof.
  eexists. split; [vm_compute; reflexivity|].
  split; [reflexivity|].
  exact (proj1 (platform_resources_requested_once
                  (set_video true false default_config) _ eq_refl)).
Defined.

(** ** Properties of [main] *)

(** [main] unfolded: the parser's refusal of the two display options
    together, else the run of [BaseSoC] followed by the build and load
    steps. *)
Lemma exec_main (argv : cmdline) :
  exec (main argv)
  = if opt_video_terminal argv && opt_video_framebuffer argv
    then Raised (Py.SystemExit 2) []
    else match exec (BaseSoC (soc_config argv)) with
         | Done _ log => Done tt (log ++ build_steps argv)
         | Raised e log => Raised e log
         end.
Proof.
  unfold exec, main, bind, parse_args, build_steps.
  destruct (opt_video_terminal argv && opt_video_framebuffer argv);
    [reflexivity|].
  unfold ret at 1. fold (soc_config argv).
  destruct (BaseSoC (soc_config argv) []) as [[] log|e log]; [|reflexivity].
  destruct (arg_build argv), (arg_load argv); unfold emit, ret; cbn;
    rewrite <- ?app_assoc, ?app_nil_r; reflexivity.
Qed.









(** X13: what [main] adds to [BaseSoC].  When [main] runs to its end,
    at most one display option was given, [BaseSoC] returned a plan for the
    parsed arguments, and the log of [main] is that plan followed by the
    build step if [--build] was given and then by the load step if [--load]
    was given (loading does not require building). *)
Theorem main_is_soc_then_build_then_load :
  forall (argv : cmdline) (log : list event),
    exec (main argv) = Done tt log ->
    opt_video_terminal argv && opt_video_framebuffer argv = false /\
    exists soc_log,
      exec (BaseSoC (soc_config argv)) = Done tt soc_log /\
      log = (soc_log
             ++ (if arg_build argv then [Build] else [])
             ++ (if arg_load argv then [LoadBitstream] else []))%list.
Proof.
  intros argv log. rewrite exec_main.
  destruct (opt_video_terminal argv && opt_video_framebuffer argv);
    [discriminate|].
  destruct (exec (BaseSoC (soc_config argv))) as [[] soc_log|e soc_log];
    [|discriminate].
  intros [= <-]. split; [reflexivity|].
  exists soc_log. split; reflexivity.
Qed.

Lemma main_is_soc_then_build_then_load_witness :
  exists log soc_log,
    exec (main default_cmdline) = Done tt log /\
    exec (BaseSoC (soc_config default_cmdline)) = Done tt soc_log /\
    log = (soc_log ++ [Build; LoadBitstream])%list.
Proof.
  assert (Hrun : exists log, exec (main default_cmdline) = Done tt log)
    by (eexists; vm_compute; reflexivity).
  destruct Hrun as (log & Hrun).
  destruct (main_is_soc_then_build_then_load default_cmdline log Hrun)
    as (_ & soc_log & Hsoc & Hlog).
  exists log, soc_log. split; [exact Hrun|]. split; [exact Hsoc|exact Hlog].
Defined.



(** X15: a build started from the command line never uses the internal
    oscillator: [main] does not pass [use_internal_osc], so whenever it runs
    to its end no OSCG is instantiated, the "clk25" pin is requested, and
    every generator is fed from that pin at 25 MHz. *)
Theorem main_uses_external_clock :
  forall (argv : cmdline) (log : list event),
    exec (main argv) = Done tt log ->
    oscillators log = [] /\
    In "clk25" (requests log) /\
    (forall p clk f, In (p, clk, f) (clkins log) ->
                     clk = Clk25Pin /\ f = 25e6%float).
Proof.
  intros argv log. rewrite exec_main.
  destruct (opt_video_terminal argv && opt_video_framebuffer argv);
    [discriminate|].
  destruct (exec (BaseSoC (soc_config argv))) as [[] soc_log|e soc_log] eqn:Hrun;
    [|discriminate].
  intros [= <-].
  destruct (BaseSoC_done_inv _ _ Hrun)
    as (Hplat & Hf & H2f & z & m & Hint & Himp).
  destruct argv as [b rev tc f rate t fb bld ld [ram l2]];
    unfold soc_config, build_steps in *; cbn in *.
  revert Hrun. run_script. rewrite ?Hplat; cbn.
  (split_rate rate; [specialize (H2f eq_refl)|clear H2f; pose proof Hf as H2f]);
    destruct t, fb; soc_step Hplat Hf H2f Hint Himp;
    destruct (Py.truthy ram); cbn;
    intros [= <-]; destruct bld, ld; cbn;
    (split; [reflexivity|]); (split; [tauto|]);
    intros p clk f0 H; in_log H; injection H as <- <- <-; split; reflexivity.
Qed.

Lemma main_uses_external_clock_witness :
  exists log,
    exec (main default_cmdline) = Done tt log /\
    oscillators log = [] /\
    In "clk25" (requests log).
Proof.
  assert (Hrun : exists log, exec (main default_cmdline) = Done tt log)
    by (eexists; vm_compute; reflexivity).
  destruct Hrun as (log & Hrun).
  destruct (main_uses_external_clock default_cmdline log Hrun)
    as (Hosc & Hreq & _).
  exists log. split; [exact Hrun|]. split; [exact Hosc|exact Hreq].
Defined.

(** ** The HDMI extension table *)

(** X16: the HDMI extension defines one resource, "hdmi", of four
    differential pairs (three data lanes and the clock), each with its
    positive and its negative signal, on eight pairwise distinct pins with
    the LVCMOS33 standard. *)
Theorem hdmi_pairs_on_distinct_pins :
  map res_name _hdmi_infos = ["hdmi"] /\
  table_signals _hdmi_infos
    = flat_map (fun lane => [lane ++ "_p"; lane ++ "_n"])
               ["data0"; "data1"; "data2"; "clk"] /\
  length (table_pins _hdmi_infos) = 8%nat /\
  NoDup (table_pins _hdmi_infos) /\
  (forall r, In r _hdmi_infos -> res_iostandard r = "LVCMOS33").
Proof.
  split; [reflexivity|]. split; [reflexivity|]. split; [reflexivity|].
  split.
  - cbn. nodup_names.
  - intros r H. in_log H. now subst r.
Qed.
